(** * Choppinzskys API: a shallow embedding of [main.py]

    The HTTP surface of the backend ([main.py]) is embedded as pure
    functions over an explicit [world]: the process environment, the
    [database] module's connection handle, the module-level [MENU_DATA]
    list and a trace of the calls made to the store adapter.

    Python dictionaries with string keys are [gmap string _]; Python
    strings are their UTF-8 bytes; exceptions are an explicit
    [outcome].  The modules [database] and [schemas] are imported by
    [main.py] but are not part of the sources at hand: their contract
    is embedded from the specification, inside [Module database] and
    [Module schemas]. *)

From Stdlib Require Import Ascii.
From stdpp Require Import gmap strings list pretty.

Open Scope string_scope.

(** ** Python values *)

(** A MongoDB [ObjectId]: a 96-bit value. *)
Record ObjectId : Type := mkObjectId { oid_value : N }.

(** The scalar values a JSON body or a stored document holds. *)
Inductive pyval : Type :=
| PNone
| PBool (b : bool)
| PInt (z : Z)
| PStr (s : string)
| PObjectId (o : ObjectId).

(** A Python [dict] with string keys and scalar values. *)
Abbreviation pydict := (gmap string pyval).

Definition hex_digit (n : N) : ascii :=
  match String.get (N.to_nat n) "0123456789abcdef" with
  | Some c => c
  | None => "0"%char
  end.

(** [width] lowercase hexadecimal digits of [n], most significant first. *)
Fixpoint hex_fixed (width : nat) (n : N) : string :=
  match width with
  | O => ""
  | S k => hex_fixed k (n / 16) +:+ String (hex_digit (n mod 16)) ""
  end.

(** [str(ObjectId(...))]: the 24-digit hexadecimal rendering. *)
Definition oid_str (o : ObjectId) : string := hex_fixed 24 (oid_value o).

(** [str(v)] on the scalar values. *)
Definition py_str (v : pyval) : string :=
  match v with
  | PNone => "None"
  | PBool true => "True"
  | PBool false => "False"
  | PInt z => pretty z
  | PStr s => s
  | PObjectId o => oid_str o
  end.

(** [d.get(k)]: the value under [k], [None] when the key is absent. *)
Definition dict_get (d : pydict) (k : string) : pyval :=
  default PNone (d !! k).

(** Truthiness of an optional string, as in [if os.getenv(...)]. *)
Definition truthy (o : option string) : bool :=
  match o with
  | None => false
  | Some "" => false
  | Some _ => true
  end.

(** A byte of the form [10xxxxxx] continues a UTF-8 encoded code point. *)
Definition is_continuation (c : ascii) : bool :=
  match c with
  | Ascii _ _ _ _ _ _ false true => true
  | _ => false
  end.

(** [s[:n]]: the first [n] code points of [s]. *)
Fixpoint str_slice_to (n : nat) (s : string) : string :=
  match s with
  | "" => ""
  | String c s' =>
      if is_continuation c then String c (str_slice_to n s')
      else match n with
           | O => ""
           | S n' => String c (str_slice_to n' s')
           end
  end.

(** ** Exceptions *)

(** The [Exception] subclasses the handlers tell apart, each with the
    data [str(e)] is built from. *)
Inductive exn : Type :=
| ImportError (msg : string)
| AttributeError (msg : string)
| HTTPException (status_code : Z) (detail : string)
| Exception (msg : string).

(** [str(e)]. *)
Definition exn_str (e : exn) : string :=
  match e with
  | ImportError msg | AttributeError msg | Exception msg => msg
  | HTTPException status_code detail => pretty status_code +:+ ": " +:+ detail
  end.

(** The result of evaluating a Python expression or call. *)
Inductive outcome (A : Type) : Type :=
| Returns (a : A)
| Raises (e : exn).
Arguments Returns {A} a.
Arguments Raises {A} e.

(** ** Blocks of statements that mutate local state

    A block of Python statements that updates local variables of type
    [S] and may raise: the state reached when an exception is raised is
    kept, so the assignments made before the [raise] stay visible to the
    [except] clause and to the code after the [try]. *)

Definition block (S A : Type) : Type := S → outcome A * S.

Global Instance block_ret {S} : MRet (block S) := λ A a s, (Returns a, s).

Global Instance block_bind {S} : MBind (block S) := λ A B f m s,
  match m s with
  | (Returns a, s') => f a s'
  | (Raises e, s') => (Raises e, s')
  end.

(** Evaluate an expression whose outcome is known. *)
Definition eval {S A} (o : outcome A) : block S A := λ s, (o, s).

(** [try: body  except Exception as e: handler(e)]. *)
Definition try_except {S A} (body : block S A) (handler : exn → block S A)
  : block S A := λ s,
  match body s with
  | (Returns a, s') => (Returns a, s')
  | (Raises e, s') => handler e s'
  end.

(** [d[k] = v] on the dictionary held in the local state. *)
Definition setitem {V} (k : string) (v : V) : block (gmap string V) unit :=
  λ d, (Returns tt, <[k := v]> d).

(** [return d] of the dictionary held in the local state. *)
Definition return_state {S} : block S S := λ s, (Returns s, s).

(** ** The [schemas] module *)

Module schemas.

(** Modelled from the spec: the [Inquiry] model of the [schemas] module,
    which [main.py] imports and which is absent from the sources.  The
    fields are the ones the spec names and its example submits ([name],
    [contact], [message]), each a required string; the timestamp-like
    metadata the spec mentions without a name is left out. *)
Record Inquiry : Type := mkInquiry {
  name : string;
  contact : string;
  message : string
}.

(** Modelled from the spec: the field-level description carried by a
    validation error of the absent [Inquiry] schema. *)
Inductive field_error : Type :=
| Missing (field : string)
| WrongType (field : string).

Definition required : list string := ["name"; "contact"; "message"].

Definition check_field (body : pydict) (field : string) : list field_error :=
  match body !! field with
  | None => [Missing field]
  | Some (PStr _) => []
  | Some _ => [WrongType field]
  end.

(** Modelled from the spec: validation of a JSON object against the
    absent [Inquiry] schema: a field that is missing or of the wrong
    type fails validation. *)
Definition validate (body : pydict) : list field_error + Inquiry :=
  match body !! "name", body !! "contact", body !! "message" with
  | Some (PStr n), Some (PStr c), Some (PStr m) => inr (mkInquiry n c m)
  | _, _, _ => inl (required ≫= check_field body)
  end.

(** Modelled from the spec: the record as a dictionary, the form in
    which the absent adapter persists it. *)
Definition model_dump (i : Inquiry) : pydict :=
  {[ "name" := PStr (name i);
     "contact" := PStr (contact i);
     "message" := PStr (message i) ]}.

End schemas.

(** ** The process state *)

(** The values held by the diagnostic object of [GET /test]. *)
Inductive diag_value : Type :=
| DNone
| DStr (s : string)
| DList (l : list string).

(** The connection handle [db] of the [database] module: what its
    attribute [name] and its method [list_collection_names] yield, whether
    the store rejects writes or reads, and the collections it holds with
    the next identifier it will assign. *)
Record Database : Type := mkDatabase {
  db_name : outcome diag_value;
  db_list_collection_names : outcome (list string);
  db_insert_fault : option exn;
  db_find_fault : option exn;
  db_collections : gmap string (list pydict);
  db_next_oid : N
}.

(** A call made to the store adapter. *)
Inductive store_call : Type :=
| CreateDocument (collection_name : string) (record : schemas.Inquiry)
| GetDocuments (collection_name : string) (limit : Z).

Module MenuItem.
Record t : Type := mk {
  id : string;
  name : string;
  description : string;
  image : string;
  category : string
}.
End MenuItem.

Module MenuCategory.
Record t : Type := mk {
  key : string;
  title : string;
  items : list MenuItem.t
}.
End MenuCategory.

(** Everything a request can observe or change: [os.environ], the outcome
    of [from database import db], the module global [MENU_DATA], and the
    trace of the adapter calls made so far. *)
Record world : Type := mkWorld {
  environ : gmap string string;
  import_db : outcome (option Database);
  menu_data : list MenuCategory.t;
  calls : list store_call
}.

(** [os.getenv(k)]. *)
Definition getenv (w : world) (k : string) : option string := environ w !! k.

Definition record_call (c : store_call) (w : world) : world :=
  mkWorld (environ w) (import_db w) (menu_data w) (calls w ++ [c])%list.

Definition set_db (d : Database) (w : world) : world :=
  mkWorld (environ w) (Returns (Some d)) (menu_data w) (calls w).

(** ** The [database] module *)

Module database.

(** Modelled from the spec: the process-wide handle [db] of the absent
    [database] module; [None] is the degraded state entered when the
    configuration is absent. *)
Definition db (w : world) : option Database :=
  match import_db w with
  | Returns d => d
  | Raises _ => None
  end.

(** Modelled from the spec: the failure of a read or write attempted in
    the degraded state, [StoreError("unavailable")]. *)
Definition unavailable : exn := Exception "unavailable".

Definition insert_one (collection_name : string) (doc : pydict)
    (d : Database) : Database :=
  mkDatabase (db_name d) (db_list_collection_names d)
    (db_insert_fault d) (db_find_fault d)
    (<[collection_name :=
         (default [] (db_collections d !! collection_name) ++ [doc])%list]>
       (db_collections d))
    (db_next_oid d + 1).

(** Modelled from the spec: [create_document] of the absent [database]
    module.  It inserts one document, the record with the identifier the
    store assigns under ["_id"], into the named collection and results
    in that identifier, the store's own [ObjectId]; it fails when the
    store is unavailable or rejects the write. *)
Definition create_document (collection_name : string)
    (record : schemas.Inquiry) (w : world) : outcome pyval * world :=
  let w := record_call (CreateDocument collection_name record) w in
  match db w with
  | None => (Raises unavailable, w)
  | Some d =>
      match db_insert_fault d with
      | Some e => (Raises e, w)
      | None =>
          let oid := mkObjectId (db_next_oid d) in
          let doc := <["_id" := PObjectId oid]> (schemas.model_dump record) in
          (Returns (PObjectId oid),
           set_db (insert_one collection_name doc d) w)
      end
  end.

(** Modelled from the spec: [get_documents] of the absent [database]
    module.  It results in at most [limit] documents of the named
    collection, here the first ones in insertion order (the spec leaves
    the order open, and covers non-negative limits only); it fails when
    the store is unavailable or the read fails. *)
Definition get_documents (collection_name : string) (limit : Z)
    (w : world) : outcome (list pydict) * world :=
  let w := record_call (GetDocuments collection_name limit) w in
  match db w with
  | None => (Raises unavailable, w)
  | Some d =>
      match db_find_fault d with
      | Some e => (Raises e, w)
      | None =>
          (Returns (take (Z.to_nat limit)
                      (default [] (db_collections d !! collection_name))),
           w)
      end
  end.

End database.

(** ** [main.py] *)

(** [raise e]. *)
Definition raise {S A} (e : exn) : block S A := eval (Raises e).

Definition read_root : block world pydict :=
  mret {[ "message" := PStr "Hello from FastAPI Backend!" ]}.

Definition hello : block world pydict :=
  mret {[ "message" := PStr "Hello from the backend API!" ]}.

(** [hasattr(db, 'name')]: false on [AttributeError], any other exception
    propagates. *)
Definition hasattr_name {S} (d : Database) : block S bool :=
  match db_name d with
  | Returns _ => mret true
  | Raises (AttributeError _) => mret false
  | Raises e => raise e
  end.

(** The statements of [test_database], acting on the local dictionary
    [response]. *)
Definition test_database_body (w : world)
  : block (gmap string diag_value) (gmap string diag_value) :=
  try_except
    (db ← eval (import_db w);
     match db with
     | Some db =>
         setitem "database" (DStr "✅ Available");;
         setitem "database_url" (DStr "✅ Configured");;
         name ← (has ← hasattr_name db;
                 if has : bool then eval (db_name db)
                 else mret (DStr "✅ Connected"));
         setitem "database_name" name;;
         setitem "connection_status" (DStr "Connected");;
         try_except
           (collections ← eval (db_list_collection_names db);
            setitem "collections" (DList (take 10 collections));;
            setitem "database" (DStr "✅ Connected & Working"))
           (λ e, setitem "database"
                   (DStr ("⚠️  Connected but Error: "
                          +:+ str_slice_to 50 (exn_str e))))
     | None =>
         setitem "database" (DStr "⚠️  Available but not initialized")
     end)
    (λ e,
       match e with
       | ImportError _ =>
           setitem "database"
             (DStr "❌ Database module not found (run enable-database first)")
       | _ =>
           setitem "database"
             (DStr ("❌ Error: " +:+ str_slice_to 50 (exn_str e)))
       end);;
  setitem "database_url"
    (DStr (if truthy (getenv w "DATABASE_URL") then "✅ Set" else "❌ Not Set"));;
  setitem "database_name"
    (DStr (if truthy (getenv w "DATABASE_NAME") then "✅ Set" else "❌ Not Set"));;
  return_state.

Definition test_database : block world (gmap string diag_value) := λ w,
  let response : gmap string diag_value :=
    {[ "backend" := DStr "✅ Running";
       "database" := DStr "❌ Not Available";
       "database_url" := DNone;
       "database_name" := DNone;
       "connection_status" := DStr "Not Connected";
       "collections" := DList [] ]} in
  ((test_database_body w response).1, w).

Definition MENU_DATA : list MenuCategory.t := [
  MenuCategory.mk
    "african"
    "African Delights"
    [
      MenuItem.mk
        "puff-puff"
        "Puff Puff"
        "Golden, fluffy bites lightly dusted with sugar."
        "https://images.unsplash.com/photo-1617191518205-29c76d7d6672?q=80&w=1400&auto=format&fit=crop"
        "African Delights";
      MenuItem.mk
        "akara"
        "Akara"
        "Crisp bean fritters with a soft, fragrant center."
        "https://images.unsplash.com/photo-1604908553982-57e1bdf4cf0f?q=80&w=1400&auto=format&fit=crop"
        "African Delights";
      MenuItem.mk
        "fried-yam"
        "Fried Yam"
        "Hearty yam chips, golden and perfectly seasoned."
        "https://images.unsplash.com/photo-1547592180-85f173990554?q=80&w=1400&auto=format&fit=crop"
        "African Delights";
      MenuItem.mk
        "plantain"
        "Plantain"
        "Sweet ripe plantain slices, caramelized to perfection."
        "https://images.unsplash.com/photo-1543332164-6e82f355badc?q=80&w=1400&auto=format&fit=crop"
        "African Delights"
    ];
  MenuCategory.mk
    "pastries"
    "Savory Pastries & Rolls"
    [
      MenuItem.mk
        "samosa"
        "Samosa"
        "Crisp pastry stuffed with spiced vegetables or meat."
        "https://images.unsplash.com/photo-1683021712492-27cf3ad5f222?q=80&w=1400&auto=format&fit=crop"
        "Savory Pastries & Rolls";
      MenuItem.mk
        "spring-rolls"
        "Spring Rolls"
        "Delicate rolls with a vibrant vegetable filling."
        "https://images.unsplash.com/photo-1512058564366-18510be2db19?q=80&w=1400&auto=format&fit=crop"
        "Savory Pastries & Rolls";
      MenuItem.mk
        "meat-pie"
        "Meat Pie"
        "Buttery pastry with a rich, savory filling."
        "https://images.unsplash.com/photo-1541781286675-7b3c9817e3d5?q=80&w=1400&auto=format&fit=crop"
        "Savory Pastries & Rolls";
      MenuItem.mk
        "fish-roll"
        "Fish Roll"
        "Flaky pastry embracing spiced fish."
        "https://images.unsplash.com/photo-1541781774459-bb2af2f05b55?q=80&w=1400&auto=format&fit=crop"
        "Savory Pastries & Rolls";
      MenuItem.mk
        "chicken-roll"
        "Chicken Roll"
        "Tender chicken seasoned and wrapped in golden pastry."
        "https://images.unsplash.com/photo-1543336661-08fc734e01d2?q=80&w=1400&auto=format&fit=crop"
        "Savory Pastries & Rolls"
    ];
  MenuCategory.mk
    "global"
    "Global Favourites"
    [
      MenuItem.mk
        "potato-swirls"
        "Potato Swirls"
        "Fun, crispy swirls with a fluffy potato center."
        "https://images.unsplash.com/photo-1551183053-bf91a1d81141?q=80&w=1400&auto=format&fit=crop"
        "Global Favourites"
    ]
].

(** [get_menu] hands out the list the module global [MENU_DATA] holds. *)
Definition get_menu : block world (list MenuCategory.t) :=
  λ w, (Returns (menu_data w), w).

Definition create_inquiry (inquiry : schemas.Inquiry) : block world pydict :=
  try_except
    (inserted_id ← database.create_document "inquiry" inquiry;
     mret {[ "status" := PStr "ok"; "id" := inserted_id ]})
    (λ e, raise (HTTPException 500 (exn_str e))).

Definition normalize (doc : pydict) : pydict :=
  let d : pydict := filter (λ kv, kv.1 ≠ "_id") doc in
  <["id" := PStr (py_str (dict_get doc "_id"))]> d.

(** [limit] is [None] when the request has no [limit] query parameter. *)
Definition list_inquiries (limit : option Z) : block world (list pydict) :=
  let limit := default 10%Z limit in
  try_except
    (docs ← database.get_documents "inquiry" limit;
     mret (normalize <$> docs))
    (λ e, raise (HTTPException 500 (exn_str e))).

(** ** The routes *)

(** The body of a response. *)
Inductive content : Type :=
| JsonDict (d : pydict)
| JsonDiag (d : gmap string diag_value)
| JsonMenu (m : list MenuCategory.t)
| JsonList (l : list pydict)
| JsonDetail (detail : string)
| JsonValidation (errors : list schemas.field_error)
| InternalServerError.

Record response : Type := mkResponse {
  status : Z;
  body : content
}.

(** A request to one of the routes [main.py] declares.  The body of a
    [POST /api/inquiries] is a JSON object of scalar fields, or a body the
    framework cannot read as a JSON object; the [limit] of a
    [GET /api/inquiries] is absent, an integer, or a text the framework
    does not accept for [limit: int].  Requests to other paths, or with
    other verbs, are answered by the framework without [main.py] and are
    not embedded. *)
Inductive request : Type :=
| GET_root
| GET_api_hello
| GET_test
| GET_api_menu
| POST_api_inquiries (json : pydict)
| GET_api_inquiries (limit : option Z)
| POST_api_inquiries_not_an_object
| GET_api_inquiries_limit_not_int.

(** Whether the framework's JSON encoder accepts a value: it knows the
    JSON scalars, and raises on an [ObjectId]. *)
Definition encodable (v : pyval) : bool :=
  match v with
  | PObjectId _ => false
  | _ => true
  end.

Definition encodable_dict (d : pydict) : bool :=
  bool_decide (map_Forall (λ _ v, encodable v = true) d).

(** The encoding of a returned value, [None] when the encoder raises. *)
Definition encode_dict (d : pydict) : option content :=
  if encodable_dict d then Some (JsonDict d) else None.

Definition encode_list (l : list pydict) : option content :=
  if forallb encodable_dict l then Some (JsonList l) else None.

Definition encode_diag (d : gmap string diag_value) : option content :=
  Some (JsonDiag d).

Definition encode_menu (m : list MenuCategory.t) : option content :=
  Some (JsonMenu m).

(** What the framework sends for the outcome of a handler: 200 with the
    returned value once it is encoded, the status and detail of an
    [HTTPException], and a bare 500 for any other exception, the
    encoder's included: the value is encoded after the handler has
    returned, outside its [try]. *)
Definition respond {A} (encode : A → option content) (r : outcome A)
  : response :=
  match r with
  | Returns a =>
      match encode a with
      | Some c => mkResponse 200 c
      | None => mkResponse 500 InternalServerError
      end
  | Raises (HTTPException status_code detail) =>
      mkResponse status_code (JsonDetail detail)
  | Raises _ => mkResponse 500 InternalServerError
  end.

Definition serve {A} (encode : A → option content) (handler : block world A)
    (w : world) : response * world :=
  let '(r, w') := handler w in (respond encode r, w').

(** The application: each route of [main.py], with the request body of
    [POST /api/inquiries] validated against [Inquiry], and the [limit] of
    [GET /api/inquiries] against [int], before the handler runs. *)
Definition app (r : request) (w : world) : response * world :=
  match r with
  | GET_root => serve encode_dict read_root w
  | GET_api_hello => serve encode_dict hello w
  | GET_test => serve encode_diag test_database w
  | GET_api_menu => serve encode_menu get_menu w
  | POST_api_inquiries json =>
      match schemas.validate json with
      | inl errors => (mkResponse 422 (JsonValidation errors), w)
      | inr inquiry => serve encode_dict (create_inquiry inquiry) w
      end
  | GET_api_inquiries limit => serve encode_list (list_inquiries limit) w
  | POST_api_inquiries_not_an_object =>
      (mkResponse 422 (JsonValidation [schemas.WrongType "body"]), w)
  | GET_api_inquiries_limit_not_int =>
      (mkResponse 422 (JsonValidation [schemas.WrongType "limit"]), w)
  end.

(** The process at start-up: [MENU_DATA] holds the catalog and no adapter
    call has been made. *)
Definition startup (env : gmap string string)
    (import : outcome (option Database)) : world :=
  mkWorld env import MENU_DATA [].

(** The state after serving the requests [rs] in turn. *)
Fixpoint run (rs : list request) (w : world) : world :=
  match rs with
  | [] => w
  | r :: rs' => run rs' (app r w).2
  end.

(** The documents a collection holds. *)
Definition stored (collection_name : string) (w : world) : list pydict :=
  match database.db w with
  | Some d => default [] (db_collections d !! collection_name)
  | None => []
  end.

(** ** The descriptions the statements use *)

(** The record the spec describes for a stored document: the field
    ["_id"] removed, and a field ["id"] added that holds the string form
    of the identifier. *)
Definition with_string_id (doc : pydict) : pydict :=
  <["id" := PStr (py_str (dict_get doc "_id"))]> (delete "_id" doc).

(** How an exception that reaches the outer [try] is described. *)
Definition describe_failure (e : exn) : string :=
  match e with
  | ImportError _ => "❌ Database module not found (run enable-database first)"
  | _ => "❌ Error: " +:+ str_slice_to 50 (exn_str e)
  end.

(** The description of the store under ["database"], by the state of the
    store: the import fails, the handle is [None], reading [db.name]
    fails, listing the collections fails, or all of it works. *)
Definition diagnosis (w : world) : string :=
  match import_db w with
  | Raises e => describe_failure e
  | Returns None => "⚠️  Available but not initialized"
  | Returns (Some db) =>
      match db_name db with
      | Returns _ | Raises (AttributeError _) =>
          match db_list_collection_names db with
          | Returns _ => "✅ Connected & Working"
          | Raises e =>
              "⚠️  Connected but Error: " +:+ str_slice_to 50 (exn_str e)
          end
      | Raises e => describe_failure e
      end
  end.

(** [Set] or [Not Set], by the truthiness of [os.getenv(k)]. *)
Definition set_or_not (w : world) (k : string) : diag_value :=
  DStr (if truthy (getenv w k) then "✅ Set" else "❌ Not Set").

(** The reading of C10 by presence: a variable that is in the environment
    gives ["✅ Set"], one that is not gives ["❌ Not Set"]. *)
Definition by_presence (w : world) (k : string) : diag_value :=
  DStr (if bool_decide (is_Some (getenv w k)) then "✅ Set" else "❌ Not Set").

(** ** Sample data *)

(** The submission of the spec's example. *)
Definition ada_json : pydict :=
  {[ "name" := PStr "Ada";
     "contact" := PStr "ada@example.com";
     "message" := PStr "Catering for 20" ]}.

Definition ada : schemas.Inquiry :=
  schemas.mkInquiry "Ada" "ada@example.com" "Catering for 20".

(** A reachable store that holds nothing yet. *)
Definition empty_store : Database :=
  mkDatabase (Returns (DStr "choppinzskys")) (Returns []) None None ∅ 0.

(** A reachable store whose reads and writes fail. *)
Definition failing_store : Database :=
  mkDatabase (Returns (DStr "choppinzskys")) (Raises (Exception "timed out"))
    (Some (Exception "write rejected")) (Some (Exception "connection lost"))
    ∅ 0.

Definition configured : gmap string string :=
  {[ "DATABASE_URL" := "mongodb://localhost:27017";
     "DATABASE_NAME" := "choppinzskys" ]}.

Definition world_empty : world := startup configured (Returns (Some empty_store)).
Definition world_failing : world := startup configured (Returns (Some failing_store)).
Definition world_unconfigured : world := startup ∅ (Returns None).

(** Two stored inquiries, as the store returns them. *)
Definition stored_ada : pydict :=
  <["_id" := PObjectId (mkObjectId 255)]> (schemas.model_dump ada).

Definition stored_without_id : pydict :=
  {[ "name" := PStr "Grace"; "message" := PStr "Samosas for 12" ]}.

Definition two_in_store : Database :=
  mkDatabase (Returns (DStr "choppinzskys")) (Returns ["inquiry"]) None None
    {[ "inquiry" := [stored_ada; stored_without_id] ]} 256.

Definition world_two : world := startup configured (Returns (Some two_in_store)).

Definition world_blank_url : world :=
  startup {[ "DATABASE_URL" := ""; "DATABASE_NAME" := "choppinzskys" ]}
    (Returns (Some empty_store)).

(** ** Descriptions used by the further properties *)

(** Whether the handler of [GET /test] got as far as assigning
    ["connection_status"]: the handle is not [None] and reading [db.name]
    did not raise (an [AttributeError] only makes [hasattr] false). *)
Definition connected (w : world) : bool :=
  match import_db w with
  | Returns (Some db) =>
      match db_name db with
      | Returns _ | Raises (AttributeError _) => true
      | Raises _ => false
      end
  | _ => false
  end.

(** The collection names [GET /test] reports. *)
Definition listed_collections (w : world) : list string :=
  if connected w then
    match import_db w with
    | Returns (Some db) =>
        match db_list_collection_names db with
        | Returns collections => take 10 collections
        | Raises _ => []
        end
    | _ => []
    end
  else [].

(** The number of code points of a UTF-8 encoded string, [len(s)]. *)
Fixpoint code_points (s : string) : nat :=
  match s with
  | "" => 0
  | String c s' => (if is_continuation c then 0 else 1) + code_points s'
  end.

(** The adapter calls a request gives rise to. *)
Definition adapter_calls (r : request) : list store_call :=
  match r with
  | POST_api_inquiries json =>
      match schemas.validate json with
      | inr inquiry => [CreateDocument "inquiry" inquiry]
      | inl _ => []
      end
  | GET_api_inquiries limit => [GetDocuments "inquiry" (default 10%Z limit)]
  | _ => []
  end.

(** A failure whose message has more than 50 characters. *)
Definition long_failure : exn :=
  Exception "✅ 0123456789012345678901234567890123456789012345678901234567890".

(** * Properties *)

Ltac lookup_item :=
  repeat first [ rewrite lookup_insert_eq
               | rewrite lookup_insert_ne by done ].


(** ** Strings and identifiers *)

Example hex_fixed_4 : hex_fixed 4 255 = "00ff".
Proof. reflexivity. Qed.

Example str_slice_to_utf8 : str_slice_to 2 "✅ Set" = "✅ ".
Proof. reflexivity. Qed.

Lemma length_string_app (s t : string) :
  String.length (s +:+ t) = String.length s + String.length t.
Proof. induction s as [|c s IH]; simpl; [done | by rewrite IH]. Qed.

Lemma length_hex_fixed (width : nat) (n : N) :
  String.length (hex_fixed width n) = width.
Proof.
  revert n. induction width as [|k IH]; intros n; simpl; [done|].
  rewrite length_string_app, IH. simpl. lia.
Qed.

Lemma length_oid_str (o : ObjectId) : String.length (oid_str o) = 24.
Proof. apply length_hex_fixed. Qed.

Lemma oid_str_nonempty (o : ObjectId) : oid_str o ≠ "".
Proof.
  intros H. pose proof (length_oid_str o) as Hlen.
  rewrite H in Hlen. discriminate Hlen.
Qed.

Lemma oid_str_not_None (o : ObjectId) : oid_str o ≠ "None".
Proof.
  intros H. pose proof (length_oid_str o) as Hlen.
  rewrite H in Hlen. discriminate Hlen.
Qed.

(** ** The adapter *)

Lemma db_record_call (c : store_call) (w : world) :
  database.db (record_call c w) = database.db w.
Proof. reflexivity. Qed.

Lemma create_document_calls collection_name record w r w' :
  database.create_document collection_name record w = (r, w') →
  calls w' = (calls w ++ [CreateDocument collection_name record])%list.
Proof.
  unfold database.create_document. rewrite db_record_call.
  destruct (database.db w) as [d|]; [destruct (db_insert_fault d)|];
    intros [= <- <-]; reflexivity.
Qed.

Lemma get_documents_calls collection_name limit w r w' :
  database.get_documents collection_name limit w = (r, w') →
  calls w' = (calls w ++ [GetDocuments collection_name limit])%list.
Proof.
  unfold database.get_documents. rewrite db_record_call.
  destruct (database.db w) as [d|]; [destruct (db_find_fault d)|];
    intros [= <- <-]; reflexivity.
Qed.

Lemma get_documents_length collection_name limit w docs w' :
  database.get_documents collection_name limit w = (Returns docs, w') →
  (length docs ≤ Z.to_nat limit)%nat.
Proof.
  unfold database.get_documents. rewrite db_record_call.
  destruct (database.db w) as [d|]; [destruct (db_find_fault d)|];
    intros [= <- <-]. rewrite length_take. lia.
Qed.

(** ** The handlers, by the outcome of the adapter call *)

Lemma create_inquiry_returns inquiry w v w' :
  database.create_document "inquiry" inquiry w = (Returns v, w') →
  create_inquiry inquiry w
  = (Returns {[ "status" := PStr "ok"; "id" := v ]}, w').
Proof.
  intros H. unfold create_inquiry, try_except, mbind, block_bind.
  rewrite H. reflexivity.
Qed.

Lemma create_inquiry_raises inquiry w e w' :
  database.create_document "inquiry" inquiry w = (Raises e, w') →
  create_inquiry inquiry w = (Raises (HTTPException 500 (exn_str e)), w').
Proof.
  intros H. unfold create_inquiry, try_except, mbind, block_bind.
  rewrite H. reflexivity.
Qed.

Lemma list_inquiries_returns limit w docs w' :
  database.get_documents "inquiry" (default 10%Z limit) w = (Returns docs, w') →
  list_inquiries limit w = (Returns (normalize <$> docs), w').
Proof.
  intros H. unfold list_inquiries, try_except, mbind, block_bind.
  rewrite H. reflexivity.
Qed.

Lemma list_inquiries_raises limit w e w' :
  database.get_documents "inquiry" (default 10%Z limit) w = (Raises e, w') →
  list_inquiries limit w = (Raises (HTTPException 500 (exn_str e)), w').
Proof.
  intros H. unfold list_inquiries, try_except, mbind, block_bind.
  rewrite H. reflexivity.
Qed.

(** ** [normalize] *)

Lemma normalize_delete (doc : pydict) :
  normalize doc = <["id" := PStr (py_str (dict_get doc "_id"))]> (delete "_id" doc).
Proof.
  unfold normalize. f_equal. apply map_eq. intros k.
  destruct (decide (k = "_id")) as [->|Hk].
  - rewrite lookup_delete_eq. apply map_lookup_filter_None. right.
    intros x _ Hne. by apply Hne.
  - rewrite lookup_delete_ne by done.
    destruct (doc !! k) as [x|] eqn:Hx.
    + apply map_lookup_filter_Some. done.
    + apply map_lookup_filter_None. by left.
Qed.

Lemma normalize_id (doc : pydict) :
  normalize doc !! "id" = Some (PStr (py_str (dict_get doc "_id"))).
Proof. rewrite normalize_delete. apply lookup_insert_eq. Qed.

Lemma normalize_internal_id (doc : pydict) : normalize doc !! "_id" = None.
Proof.
  rewrite normalize_delete. rewrite lookup_insert_ne by done.
  apply lookup_delete_eq.
Qed.

Lemma normalize_other (doc : pydict) (k : string) :
  k ≠ "_id" → k ≠ "id" → normalize doc !! k = doc !! k.
Proof.
  intros H1 H2. rewrite normalize_delete.
  rewrite lookup_insert_ne by done. by rewrite lookup_delete_ne.
Qed.

(** ** Validation *)

Example validate_ada : schemas.validate ada_json = inr ada.
Proof. reflexivity. Qed.

Example validate_missing_message :
  schemas.validate (delete "message" ada_json) = inl [schemas.Missing "message"].
Proof. vm_compute. reflexivity. Qed.

(** ** The encoding of returned values *)

Lemma encodable_dict_true (d : pydict) :
  encodable_dict d = true ↔ ∀ k v, d !! k = Some v → encodable v = true.
Proof. unfold encodable_dict. rewrite bool_decide_eq_true. reflexivity. Qed.


(** A normalized record is encoded when the document holds no [ObjectId]
    under a key other than ["_id"]. *)
Lemma normalize_encodable (doc : pydict) :
  (∀ k v, doc !! k = Some v → k ≠ "_id" → encodable v = true) →
  encodable_dict (normalize doc) = true.
Proof.
  intros Hdoc. apply encodable_dict_true. intros k v.
  rewrite normalize_delete.
  destruct (decide (k = "id")) as [->|Hid].
  - rewrite lookup_insert_eq. intros [= <-]. reflexivity.
  - rewrite lookup_insert_ne by done.
    destruct (decide (k = "_id")) as [->|Hk].
    + rewrite lookup_delete_eq. discriminate.
    + rewrite lookup_delete_ne by done. intros Hv. by eapply Hdoc.
Qed.

Lemma normalize_all_encodable (docs : list pydict) :
  (∀ doc k v, doc ∈ docs → doc !! k = Some v → k ≠ "_id" →
              encodable v = true) →
  forallb encodable_dict (normalize <$> docs) = true.
Proof.
  intros Hdocs. induction docs as [|doc docs IH]; [reflexivity|].
  cbn. rewrite normalize_encodable, IH; [reflexivity| |].
  - intros doc' k v Hin. apply Hdocs. by apply list_elem_of_further.
  - intros k v. apply Hdocs. apply list_elem_of_here.
Qed.

(** ** POST /api/inquiries *)



Lemma check_field_nil (json : pydict) (field : string) :
  schemas.check_field json field = [] ↔ ∃ s, json !! field = Some (PStr s).
Proof.
  unfold schemas.check_field. split.
  - destruct (json !! field) as [[]|]; try discriminate. eauto.
  - intros [s ->]. reflexivity.
Qed.

(** A body is rejected exactly when one of the required fields is missing
    or is not a string, and then every such field is reported. *)
Lemma validate_rejects (json : pydict) (field : string) :
  field ∈ schemas.required →
  (∀ s, json !! field ≠ Some (PStr s)) →
  schemas.validate json = inl (schemas.required ≫= schemas.check_field json)
  ∧ schemas.required ≫= schemas.check_field json ≠ [].
Proof.
  intros Hin Hbad. split.
  - unfold schemas.validate.
    destruct (json !! "name") as [[]|] eqn:Hn; try reflexivity.
    destruct (json !! "contact") as [[]|] eqn:Hc; try reflexivity.
    destruct (json !! "message") as [[]|] eqn:Hm; try reflexivity.
    exfalso. unfold schemas.required in Hin.
    repeat (apply elem_of_cons in Hin as [->|Hin]);
      [by eapply Hbad .. | by apply elem_of_nil in Hin].
  - intros Hnil.
    assert (schemas.check_field json field = []) as Hf.
    { destruct (schemas.check_field json field) as [|err errs] eqn:Hf; [done|].
      assert (err ∈ schemas.required ≫= schemas.check_field json) as Herr.
      { apply list_elem_of_bind. exists field. split; [|done].
        rewrite Hf. apply list_elem_of_here. }
      rewrite Hnil in Herr. by apply elem_of_nil in Herr. }
    apply check_field_nil in Hf as [s Hs]. by eapply Hbad.
Qed.

(** C5: a body in which a required field is missing or is not a string is
    answered with 422; the process state, and with it the trace of adapter
    calls and the store, is what it was, so [create_document] has not been
    called and a listing made afterwards is the one made before. *)
Theorem create_inquiry_invalid_body_422
    (json : pydict) (field : string) (w : world) :
  field ∈ schemas.required →
  (∀ s, json !! field ≠ Some (PStr s)) →
  ∃ errors,
    errors ≠ []
    ∧ app (POST_api_inquiries json) w
      = (mkResponse 422 (JsonValidation errors), w)
    ∧ calls (app (POST_api_inquiries json) w).2 = calls w
    ∧ ∀ limit,
        app (GET_api_inquiries limit) (app (POST_api_inquiries json) w).2
        = app (GET_api_inquiries limit) w.
Proof.
  intros Hin Hbad.
  destruct (validate_rejects json field Hin Hbad) as [Hv Hne].
  exists (schemas.required ≫= schemas.check_field json).
  assert (app (POST_api_inquiries json) w
          = (mkResponse 422
               (JsonValidation (schemas.required ≫= schemas.check_field json)),
             w)) as Happ.
  { unfold app. rewrite Hv. reflexivity. }
  rewrite Happ. simpl. auto.
Qed.

Lemma create_inquiry_invalid_body_422_witness :
  "message" ∈ schemas.required
  ∧ (∀ s, delete "message" ada_json !! "message" ≠ Some (PStr s))
  ∧ ∃ errors,
      errors ≠ []
      ∧ app (POST_api_inquiries (delete "message" ada_json)) world_empty
        = (mkResponse 422 (JsonValidation errors), world_empty).
Proof.
  assert ("message" ∈ schemas.required) as Hin.
  { unfold schemas.required. apply list_elem_of_further, list_elem_of_further,
      list_elem_of_here. }
  assert (∀ s, delete "message" ada_json !! "message" ≠ Some (PStr s)) as Hbad.
  { intros s. rewrite lookup_delete_eq. discriminate. }
  split; [exact Hin|]. split; [exact Hbad|].
  destruct (create_inquiry_invalid_body_422 (delete "message" ada_json)
              "message" world_empty Hin Hbad) as (errors & Hne & Happ & _).
  exists errors. split; assumption.
Defined.

(** C6: when [create_document] or [get_documents] raises, the route
    answers 500 with the text of the exception as detail: the handler
    replaces the exception by [HTTPException(500, str(e))], which the
    framework renders, and the store's exception does not propagate. *)
Theorem store_failure_is_500 (w : world) (e : exn) (w' : world) :
  (∀ json inquiry,
     schemas.validate json = inr inquiry →
     database.create_document "inquiry" inquiry w = (Raises e, w') →
     create_inquiry inquiry w = (Raises (HTTPException 500 (exn_str e)), w')
     ∧ app (POST_api_inquiries json) w
       = (mkResponse 500 (JsonDetail (exn_str e)), w'))
  ∧ (∀ limit,
       database.get_documents "inquiry" (default 10%Z limit) w = (Raises e, w') →
       list_inquiries limit w = (Raises (HTTPException 500 (exn_str e)), w')
       ∧ app (GET_api_inquiries limit) w
         = (mkResponse 500 (JsonDetail (exn_str e)), w')).
Proof.
  split.
  - intros json inquiry Hvalid Hraise.
    pose proof (create_inquiry_raises _ _ _ _ Hraise) as Hh.
    split; [exact Hh|]. unfold app. rewrite Hvalid. unfold serve.
    rewrite Hh. reflexivity.
  - intros limit Hraise.
    pose proof (list_inquiries_raises _ _ _ _ Hraise) as Hh.
    split; [exact Hh|]. unfold app, serve. rewrite Hh. reflexivity.
Qed.

Lemma store_failure_is_500_witness :
  (app (POST_api_inquiries ada_json) world_failing).1
  = mkResponse 500 (JsonDetail "write rejected")
  ∧ (app (GET_api_inquiries None) world_failing).1
    = mkResponse 500 (JsonDetail "connection lost")
  ∧ (app (GET_api_inquiries (Some 3%Z)) world_unconfigured).1
    = mkResponse 500 (JsonDetail "unavailable").
Proof.
  split; [|split].
  - destruct (store_failure_is_500 world_failing (Exception "write rejected")
                (database.create_document "inquiry" ada world_failing).2)
      as [H _].
    destruct (H ada_json ada eq_refl eq_refl) as [_ ->]. reflexivity.
  - destruct (store_failure_is_500 world_failing (Exception "connection lost")
                (database.get_documents "inquiry" 10 world_failing).2)
      as [_ H].
    destruct (H None eq_refl) as [_ ->]. reflexivity.
  - destruct (store_failure_is_500 world_unconfigured database.unavailable
                (database.get_documents "inquiry" 3 world_unconfigured).2)
      as [_ H].
    destruct (H (Some 3%Z) eq_refl) as [_ ->]. reflexivity.
Defined.

(** ** GET /api/inquiries *)

(** C2: when [get_documents] results in [docs], [list_inquiries] returns
    one record per document, in the same order; the record has no
    ["_id"], has under ["id"] the string form of the document's ["_id"],
    and agrees with the document on every other field.  [GET
    /api/inquiries] answers 200 with these records when no document holds
    an [ObjectId] under a key other than ["_id"]. *)
Theorem list_inquiries_normalizes_each
    (limit : option Z) (w : world) (docs : list pydict) (w' : world) :
  database.get_documents "inquiry" (default 10%Z limit) w = (Returns docs, w') →
  ∃ records,
    list_inquiries limit w = (Returns records, w')
    ∧ records = with_string_id <$> docs
    ∧ length records = length docs
    ∧ (∀ i doc, docs !! i = Some doc →
         ∃ record,
           records !! i = Some record
           ∧ record !! "_id" = None
           ∧ record !! "id" = Some (PStr (py_str (dict_get doc "_id")))
           ∧ ∀ k, k ≠ "_id" → k ≠ "id" → record !! k = doc !! k)
    ∧ ((∀ doc k v, doc ∈ docs → doc !! k = Some v → k ≠ "_id" →
                   encodable v = true) →
       app (GET_api_inquiries limit) w
       = (mkResponse 200 (JsonList records), w')).
Proof.
  intros Hget. exists (normalize <$> docs).
  pose proof (list_inquiries_returns _ _ _ _ Hget) as Hhandler.
  split; [exact Hhandler|]. split; [|split; [|split]].
  - apply list_fmap_ext. intros _ doc _. apply normalize_delete.
  - apply length_fmap.
  - intros i doc Hdoc. exists (normalize doc). split; [|split; [|split]].
    + rewrite list_lookup_fmap, Hdoc. reflexivity.
    + apply normalize_internal_id.
    + apply normalize_id.
    + intros k. apply normalize_other.
  - intros Hdocs. unfold app, serve. rewrite Hhandler.
    unfold respond, encode_list.
    rewrite (normalize_all_encodable docs Hdocs). reflexivity.
Qed.

Lemma list_inquiries_normalizes_each_witness :
  database.get_documents "inquiry" 10 world_two
  = (Returns [stored_ada; stored_without_id],
     record_call (GetDocuments "inquiry" 10) world_two)
  ∧ (list_inquiries None world_two).1
    = Returns
        [ {[ "name" := PStr "Ada";
             "contact" := PStr "ada@example.com";
             "message" := PStr "Catering for 20";
             "id" := PStr "0000000000000000000000ff" ]};
          {[ "name" := PStr "Grace";
             "message" := PStr "Samosas for 12";
             "id" := PStr "None" ]} ]
  ∧ (app (GET_api_inquiries None) world_two).1
    = mkResponse 200
        (JsonList
           [ {[ "name" := PStr "Ada";
                "contact" := PStr "ada@example.com";
                "message" := PStr "Catering for 20";
                "id" := PStr "0000000000000000000000ff" ]};
             {[ "name" := PStr "Grace";
                "message" := PStr "Samosas for 12";
                "id" := PStr "None" ]} ]).
Proof.
  split; [reflexivity|].
  destruct (list_inquiries_normalizes_each None world_two
              [stored_ada; stored_without_id]
              (record_call (GetDocuments "inquiry" 10) world_two) eq_refl)
    as (records & -> & -> & _).
  split; vm_compute; reflexivity.
Defined.

(** C9: a document that has no ["_id"], or has [None] under it, is still
    listed by [list_inquiries], with the string ["None"] under ["id"]: a
    non-empty string that is not the string form of any identifier the
    store assigns.  [GET /api/inquiries] answers 200 with that record
    among the others when no document holds an [ObjectId] under a key
    other than ["_id"]. *)
Theorem list_inquiries_missing_id_is_None
    (limit : option Z) (w : world) (docs : list pydict) (w' : world)
    (i : nat) (doc : pydict) :
  database.get_documents "inquiry" (default 10%Z limit) w = (Returns docs, w') →
  docs !! i = Some doc →
  doc !! "_id" = None ∨ doc !! "_id" = Some PNone →
  ∃ records record,
    list_inquiries limit w = (Returns records, w')
    ∧ records !! i = Some record
    ∧ record !! "id" = Some (PStr "None")
    ∧ "None" ≠ ""
    ∧ (∀ oid, oid_str oid ≠ "None")
    ∧ ((∀ doc k v, doc ∈ docs → doc !! k = Some v → k ≠ "_id" →
                   encodable v = true) →
       app (GET_api_inquiries limit) w
       = (mkResponse 200 (JsonList records), w')).
Proof.
  intros Hget Hdoc Hid. exists (normalize <$> docs), (normalize doc).
  pose proof (list_inquiries_returns _ _ _ _ Hget) as Hhandler.
  split; [exact Hhandler|]. split; [|split; [|split; [|split]]].
  - rewrite list_lookup_fmap, Hdoc. reflexivity.
  - rewrite normalize_id. unfold dict_get.
    destruct Hid as [-> | ->]; reflexivity.
  - discriminate.
  - apply oid_str_not_None.
  - intros Hdocs. unfold app, serve. rewrite Hhandler.
    unfold respond, encode_list.
    rewrite (normalize_all_encodable docs Hdocs). reflexivity.
Qed.

Lemma list_inquiries_missing_id_is_None_witness :
  database.get_documents "inquiry" 10 world_two
  = (Returns [stored_ada; stored_without_id],
     record_call (GetDocuments "inquiry" 10) world_two)
  ∧ [stored_ada; stored_without_id] !! 1%nat = Some stored_without_id
  ∧ stored_without_id !! "_id" = None
  ∧ ∃ records record,
      (list_inquiries None world_two).1 = Returns records
      ∧ records !! 1%nat = Some record
      ∧ record !! "id" = Some (PStr "None").
Proof.
  split; [reflexivity|]. split; [reflexivity|]. split; [reflexivity|].
  destruct (list_inquiries_missing_id_is_None None world_two
              [stored_ada; stored_without_id]
              (record_call (GetDocuments "inquiry" 10) world_two)
              1%nat stored_without_id eq_refl eq_refl (or_introl eq_refl))
    as (records & record & Hh & Hrec & Hid & _).
  exists records, record. rewrite Hh. auto.
Defined.

(** C7: without a [limit] query parameter the handler calls
    [get_documents("inquiry", limit=10)], that call and no other, and the
    route answers as it does for [limit=10]; a 200 answer lists at most 10
    records, whatever the store holds. *)
Theorem list_inquiries_default_limit_10 (w : world) :
  calls (app (GET_api_inquiries None) w).2
  = (calls w ++ [GetDocuments "inquiry" 10])%list
  ∧ app (GET_api_inquiries None) w = app (GET_api_inquiries (Some 10%Z)) w
  ∧ match body (app (GET_api_inquiries None) w).1 with
    | JsonList records =>
        records = normalize <$> take 10 (stored "inquiry" w)
        ∧ (length records ≤ 10)%nat
    | _ => status (app (GET_api_inquiries None) w).1 = 500%Z
    end.
Proof.
  split; [|split; [reflexivity|]].
  - unfold app, serve.
    destruct (database.get_documents "inquiry" 10 w) as [[docs|e] w'] eqn:Hget.
    + rewrite (list_inquiries_returns None w docs w' Hget). simpl.
      by eapply get_documents_calls.
    + rewrite (list_inquiries_raises None w e w' Hget). simpl.
      by eapply get_documents_calls.
  - unfold app, serve.
    destruct (database.get_documents "inquiry" 10 w) as [[docs|e] w'] eqn:Hget.
    + rewrite (list_inquiries_returns None w docs w' Hget).
      unfold respond, encode_list.
      destruct (forallb encodable_dict (normalize <$> docs));
        [simpl|reflexivity].
      pose proof (get_documents_length _ _ _ _ _ Hget) as Hlen.
      revert Hget. unfold database.get_documents, stored.
      rewrite db_record_call.
      destruct (database.db w) as [d|]; [|discriminate].
      destruct (db_find_fault d); [discriminate|].
      intros [= <- <-]. split; [reflexivity|].
      rewrite length_fmap. change (Z.to_nat 10) with 10%nat in Hlen. exact Hlen.
    + rewrite (list_inquiries_raises None w e w' Hget). simpl. reflexivity.
Qed.

(** C8: on a store that answers, [GET /api/inquiries?limit=0] makes
    [get_documents] result in no document and is answered with 200 and
    the empty list. *)
Theorem list_inquiries_limit_0_empty (w : world) (d : Database) :
  database.db w = Some d →
  db_find_fault d = None →
  database.get_documents "inquiry" 0 w
  = (Returns [], record_call (GetDocuments "inquiry" 0) w)
  ∧ app (GET_api_inquiries (Some 0%Z)) w
    = (mkResponse 200 (JsonList []),
       record_call (GetDocuments "inquiry" 0) w).
Proof.
  intros Hdb Hfault.
  assert (database.get_documents "inquiry" 0 w
          = (Returns [], record_call (GetDocuments "inquiry" 0) w)) as Hget.
  { unfold database.get_documents. rewrite db_record_call, Hdb, Hfault.
    reflexivity. }
  split; [exact Hget|]. unfold app, serve.
  rewrite (list_inquiries_returns (Some 0%Z) w [] _ Hget). reflexivity.
Qed.

Lemma list_inquiries_limit_0_empty_witness :
  database.db world_two = Some two_in_store
  ∧ db_find_fault two_in_store = None
  ∧ stored "inquiry" world_two = [stored_ada; stored_without_id]
  ∧ (app (GET_api_inquiries (Some 0%Z)) world_two).1
    = mkResponse 200 (JsonList []).
Proof.
  split; [reflexivity|]. split; [reflexivity|]. split; [reflexivity|].
  destruct (list_inquiries_limit_0_empty world_two two_in_store
              eq_refl eq_refl) as [_ ->].
  reflexivity.
Defined.

Example list_inquiries_default_limit_of_eleven :
  let w := startup configured
             (Returns (Some (mkDatabase (Returns (DStr "choppinzskys"))
                               (Returns ["inquiry"]) None None
                               {[ "inquiry" := replicate 11 stored_ada ]} 256))) in
  length (stored "inquiry" w) = 11%nat
  ∧ (app (GET_api_inquiries None) w).1
    = mkResponse 200 (JsonList (replicate 10 (normalize stored_ada))).
Proof. split; vm_compute; reflexivity. Qed.

(** ** GET /api/menu *)

Lemma create_document_menu_data collection_name record w :
  menu_data (database.create_document collection_name record w).2 = menu_data w.
Proof.
  unfold database.create_document. rewrite db_record_call.
  destruct (database.db w) as [d|]; [destruct (db_insert_fault d)|];
    reflexivity.
Qed.

Lemma get_documents_menu_data collection_name limit w :
  menu_data (database.get_documents collection_name limit w).2 = menu_data w.
Proof.
  unfold database.get_documents. rewrite db_record_call.
  destruct (database.db w) as [d|]; [destruct (db_find_fault d)|];
    reflexivity.
Qed.

(** No route assigns to [MENU_DATA] or changes the list it holds. *)
Lemma app_menu_data (r : request) (w : world) :
  menu_data (app r w).2 = menu_data w.
Proof.
  destruct r as [| | | |json|limit| |]; try reflexivity.
  - unfold app. destruct (schemas.validate json) as [errors|inquiry];
      [reflexivity|].
    unfold serve, create_inquiry, try_except, mbind, block_bind.
    pose proof (create_document_menu_data "inquiry" inquiry w) as H.
    destruct (database.create_document "inquiry" inquiry w) as [[v|e] w'];
      exact H.
  - unfold app, serve, list_inquiries, try_except, mbind, block_bind.
    pose proof (get_documents_menu_data "inquiry" (default 10%Z limit) w) as H.
    destruct (database.get_documents "inquiry" (default 10%Z limit) w)
      as [[docs|e] w']; exact H.
Qed.

Lemma run_menu_data (rs : list request) (w : world) :
  menu_data (run rs w) = menu_data w.
Proof.
  revert w. induction rs as [|r rs IH]; intros w; simpl; [done|].
  by rewrite IH, app_menu_data.
Qed.

(** C3: whatever requests the process has served since start-up,
    [GET /api/menu] answers 200 with the whole of the catalog [MENU_DATA]
    and leaves the process state, [MENU_DATA] included, as it was; a
    second call gives the same answer. *)
Theorem get_menu_deterministic
    (env : gmap string string) (import : outcome (option Database))
    (rs : list request) :
  let w := run rs (startup env import) in
  app GET_api_menu w = (mkResponse 200 (JsonMenu MENU_DATA), w)
  ∧ app GET_api_menu (app GET_api_menu w).2 = app GET_api_menu w
  ∧ menu_data (app GET_api_menu w).2 = MENU_DATA.
Proof.
  intros w.
  assert (menu_data w = MENU_DATA) as Hmenu.
  { unfold w. rewrite run_menu_data. reflexivity. }
  assert (app GET_api_menu w = (mkResponse 200 (JsonMenu MENU_DATA), w)) as H.
  { unfold app, serve, get_menu. simpl. rewrite Hmenu. reflexivity. }
  rewrite H. simpl. auto.
Qed.

(** ** GET /test *)

(** The handler always reaches its [return]: the dictionary it returns is
    the one left by the [try] statement, with ["database_url"] and
    ["database_name"] assigned last. *)
Lemma test_database_returns (w : world) :
  ∃ d : gmap string diag_value,
    test_database w
    = (Returns (<["database_name" := set_or_not w "DATABASE_NAME"]>
                  (<["database_url" := set_or_not w "DATABASE_URL"]> d)), w)
    ∧ d !! "backend" = Some (DStr "✅ Running")
    ∧ d !! "database" = Some (DStr (diagnosis w))
    ∧ is_Some (d !! "connection_status")
    ∧ is_Some (d !! "collections").
Proof.
  unfold test_database, test_database_body, diagnosis, set_or_not.
  unfold try_except, mbind, block_bind, eval, setitem, return_state,
    hasattr_name, raise, eval, mret, block_ret.
  destruct (import_db w) as [[db|]|e].
  - destruct (db_name db) as [v|[]];
      destruct (db_list_collection_names db) as [l|e']; cbn [fst snd];
      (eexists; split; [reflexivity|]);
      repeat split; lookup_item; eauto.
  - cbn [fst snd]. eexists; split; [reflexivity|].
    repeat split; lookup_item; eauto.
  - destruct e; cbn [fst snd]; (eexists; split; [reflexivity|]);
      repeat split; lookup_item; eauto.
Qed.

(** C4: in every state of the store and of the environment
    [test_database] returns, and [GET /test] is answered with 200 and the
    diagnostic object; the state of the store, failures included, is
    described under ["database"]. *)
Theorem test_database_never_fails (w : world) :
  ∃ d : gmap string diag_value,
    test_database w = (Returns d, w)
    ∧ app GET_test w = (mkResponse 200 (JsonDiag d), w)
    ∧ d !! "backend" = Some (DStr "✅ Running")
    ∧ d !! "database" = Some (DStr (diagnosis w))
    ∧ is_Some (d !! "database_url")
    ∧ is_Some (d !! "database_name")
    ∧ is_Some (d !! "connection_status")
    ∧ is_Some (d !! "collections").
Proof.
  destruct (test_database_returns w) as (d & Hd & Hbackend & Hdb & Hcs & Hcol).
  eexists. split; [exact Hd|].
  split; [unfold app, serve; rewrite Hd; reflexivity|].
  repeat split; lookup_item; eauto.
Qed.

Example test_database_unconfigured :
  ∃ d, app GET_test world_unconfigured = (mkResponse 200 (JsonDiag d), world_unconfigured)
       ∧ d !! "database" = Some (DStr "⚠️  Available but not initialized")
       ∧ d !! "database_url" = Some (DStr "❌ Not Set")
       ∧ d !! "connection_status" = Some (DStr "Not Connected").
Proof. eexists. repeat split; vm_compute; reflexivity. Qed.

Example test_database_failing :
  ∃ d, app GET_test world_failing = (mkResponse 200 (JsonDiag d), world_failing)
       ∧ d !! "database" = Some (DStr "⚠️  Connected but Error: timed out").
Proof. eexists. repeat split; vm_compute; reflexivity. Qed.

(** C10, as stated, fails: with [DATABASE_URL] present in the environment
    but empty, ["database_url"] ends as ["❌ Not Set"]. *)
Lemma test_database_presence_counterexample :
  is_Some (getenv world_blank_url "DATABASE_URL")
  ∧ ¬ (∀ d, test_database world_blank_url = (Returns d, world_blank_url) →
            d !! "database_url" = Some (by_presence world_blank_url "DATABASE_URL"))
  ∧ ∃ d, test_database world_blank_url = (Returns d, world_blank_url)
         ∧ d !! "database_url" = Some (DStr "❌ Not Set").
Proof.
  split; [by eexists|]. split.
  - intros H. specialize (H _ eq_refl). vm_compute in H. discriminate H.
  - eexists. split; [reflexivity|]. vm_compute. reflexivity.
Qed.

(** C10, amended: the values ["database_url"] and ["database_name"] end
    with depend on the environment alone, whatever was assigned to them
    from the connection earlier in the handler: ["✅ Set"] when the
    variable is set to a non-empty string, ["❌ Not Set"] when it is
    absent or empty. *)
Theorem test_database_config_fields_from_environ (w : world) :
  ∃ d : gmap string diag_value,
    test_database w = (Returns d, w)
    ∧ d !! "database_url" = Some (set_or_not w "DATABASE_URL")
    ∧ d !! "database_name" = Some (set_or_not w "DATABASE_NAME").
Proof.
  destruct (test_database_returns w) as (d & Hd & _).
  eexists. split; [exact Hd|]. split; lookup_item; reflexivity.
Qed.

Example test_database_overwrites_connection_values :
  ∃ d, test_database (startup ∅ (Returns (Some empty_store)))
       = (Returns d, startup ∅ (Returns (Some empty_store)))
       ∧ d !! "connection_status" = Some (DStr "Connected")
       ∧ d !! "database_url" = Some (DStr "❌ Not Set")
       ∧ d !! "database_name" = Some (DStr "❌ Not Set").
Proof. eexists. repeat split; vm_compute; reflexivity. Qed.

(** * Further properties of [main.py] *)

(** ** [normalize] applied to records *)

(** X1: [normalize] is not idempotent.  A second pass over a record
    changes nothing but its ["id"], which becomes the string ["None"]; so
    the second pass leaves the record as it is exactly when the first one
    already gave ["None"], and it changes every record made from a
    document with an [ObjectId] under ["_id"]. *)
Theorem normalize_twice_loses_id (doc : pydict) :
  normalize (normalize doc) = <["id" := PStr "None"]> (normalize doc)
  ∧ normalize (normalize doc) !! "id" = Some (PStr "None")
  ∧ (normalize (normalize doc) = normalize doc
     ↔ py_str (dict_get doc "_id") = "None")
  ∧ (∀ oid, doc !! "_id" = Some (PObjectId oid) →
            normalize (normalize doc) ≠ normalize doc).
Proof.
  assert (normalize (normalize doc) = <["id" := PStr "None"]> (normalize doc))
    as H.
  { rewrite (normalize_delete (normalize doc)). unfold dict_get.
    rewrite normalize_internal_id. simpl.
    rewrite delete_id by apply normalize_internal_id. reflexivity. }
  assert (normalize (normalize doc) = normalize doc
          ↔ py_str (dict_get doc "_id") = "None") as Hiff.
  { rewrite H. split.
    - intros Heq. apply (f_equal (λ d : pydict, d !! "id")) in Heq.
      rewrite lookup_insert_eq, normalize_id in Heq. congruence.
    - intros Hnone. apply insert_id. rewrite normalize_id, Hnone.
      reflexivity. }
  split; [exact H|]. split; [rewrite H; apply lookup_insert_eq|].
  split; [exact Hiff|].
  intros oid Hoid Heq. apply Hiff in Heq. unfold dict_get in Heq.
  rewrite Hoid in Heq. by apply (oid_str_not_None oid).
Qed.

Lemma normalize_twice_loses_id_witness :
  stored_ada !! "_id" = Some (PObjectId (mkObjectId 255))
  ∧ normalize stored_ada !! "id" = Some (PStr "0000000000000000000000ff")
  ∧ normalize (normalize stored_ada) !! "id" = Some (PStr "None")
  ∧ normalize (normalize stored_ada) ≠ normalize stored_ada.
Proof.
  destruct (normalize_twice_loses_id stored_ada) as (_ & Hid & _ & Hne).
  split; [reflexivity|]. split; [reflexivity|]. split; [exact Hid|].
  exact (Hne (mkObjectId 255) eq_refl).
Defined.

(** X2: the fields of a normalized record are those of the document
    without ["_id"], together with ["id"]. *)
Theorem normalize_fields (doc : pydict) :
  dom (normalize doc) = {["id"]} ∪ (dom doc ∖ {["_id"]}).
Proof.
  rewrite normalize_delete, dom_insert_L, dom_delete_L. reflexivity.
Qed.

(** X3: a document that has an ["_id"] and no field ["id"] keeps its
    number of fields; one that already has a field ["id"] loses the value
    it held there. *)
Theorem normalize_size (doc : pydict) (v : pyval) :
  doc !! "_id" = Some v →
  (doc !! "id" = None → size (normalize doc) = size doc)
  ∧ (∀ old, doc !! "id" = Some old →
       normalize doc !! "id" = Some (PStr (py_str v))
       ∧ S (size (normalize doc)) = size doc).
Proof.
  intros Hid. rewrite normalize_delete. unfold dict_get. rewrite Hid. simpl.
  assert (size doc = S (size (delete "_id" doc))) as Hsize.
  { rewrite map_size_delete_Some by eauto.
    assert (size doc ≠ 0%nat); [|lia].
    intros H0. apply map_size_empty_iff in H0. rewrite H0 in Hid.
    by rewrite lookup_empty in Hid. }
  split.
  - intros Hnone. rewrite map_size_insert_None; [lia|].
    by rewrite lookup_delete_ne.
  - intros old Hold. split; [apply lookup_insert_eq|].
    rewrite map_size_insert_Some; [lia|].
    rewrite lookup_delete_ne by done. eauto.
Qed.

Lemma normalize_size_witness :
  stored_ada !! "_id" = Some (PObjectId (mkObjectId 255))
  ∧ stored_ada !! "id" = None
  ∧ size (normalize stored_ada) = size stored_ada.
Proof.
  split; [reflexivity|]. split; [reflexivity|].
  exact (proj1 (normalize_size stored_ada (PObjectId (mkObjectId 255)) eq_refl)
           eq_refl).
Defined.

Lemma dict_get_Some (d : pydict) (k : string) (v : pyval) :
  d !! k = Some v → dict_get d k = v.
Proof. intros H. unfold dict_get. rewrite H. reflexivity. Qed.

Lemma string_app_inj (s1 s2 t1 t2 : string) :
  String.length s1 = String.length s2 →
  s1 +:+ t1 = s2 +:+ t2 → s1 = s2 ∧ t1 = t2.
Proof.
  revert s2. induction s1 as [|c s1 IH]; intros [|c2 s2]; simpl;
    try discriminate.
  - done.
  - intros [= Hlen] [= -> Happ]. destruct (IH s2 Hlen Happ) as [-> ->]. done.
Qed.

Lemma hex_digit_inj (a b : N) :
  (a < 16)%N → (b < 16)%N → hex_digit a = hex_digit b → a = b.
Proof.
  intros Ha Hb.
  assert (∃ i : nat, (i < 16)%nat ∧ a = N.of_nat i) as (i & Hi & ->).
  { exists (N.to_nat a). lia. }
  assert (∃ j : nat, (j < 16)%nat ∧ b = N.of_nat j) as (j & Hj & ->).
  { exists (N.to_nat b). lia. }
  destruct i as [|[|[|[|[|[|[|[|[|[|[|[|[|[|[|[|i]]]]]]]]]]]]]]]]; [..|lia];
    (destruct j as [|[|[|[|[|[|[|[|[|[|[|[|[|[|[|[|j]]]]]]]]]]]]]]]]; [..|lia]);
    intros H; first [reflexivity | discriminate H].
Qed.

Lemma hex_fixed_inj (width : nat) (n m : N) :
  (n < 16 ^ N.of_nat width)%N → (m < 16 ^ N.of_nat width)%N →
  hex_fixed width n = hex_fixed width m → n = m.
Proof.
  revert n m. induction width as [|k IH]; intros n m Hn Hm.
  - simpl in Hn, Hm. lia.
  - rewrite Nat2N.inj_succ, N.pow_succ_r' in Hn, Hm. simpl. intros H.
    apply string_app_inj in H as [Hhi [= Hlo]];
      [|by rewrite !length_hex_fixed].
    apply IH in Hhi; [|apply N.Div0.div_lt_upper_bound; lia ..].
    apply hex_digit_inj in Hlo; [|apply N.mod_lt; lia ..].
    rewrite (N.div_mod' n 16), (N.div_mod' m 16). congruence.
Qed.

(** X4: two documents identified by different 96-bit [ObjectId]s are
    listed with different ["id"]s. *)
Theorem normalize_keeps_object_ids_apart (doc1 doc2 : pydict) (o1 o2 : ObjectId) :
  doc1 !! "_id" = Some (PObjectId o1) →
  doc2 !! "_id" = Some (PObjectId o2) →
  (oid_value o1 < 2 ^ 96)%N →
  (oid_value o2 < 2 ^ 96)%N →
  o1 ≠ o2 →
  normalize doc1 !! "id" ≠ normalize doc2 !! "id".
Proof.
  intros H1 H2 Hb1 Hb2 Hne. rewrite !normalize_id.
  rewrite (dict_get_Some _ _ _ H1), (dict_get_Some _ _ _ H2).
  change (py_str (PObjectId o1)) with (hex_fixed 24 (oid_value o1)).
  change (py_str (PObjectId o2)) with (hex_fixed 24 (oid_value o2)).
  intros Heq.
  assert (hex_fixed 24 (oid_value o1) = hex_fixed 24 (oid_value o2)) as Hs
    by congruence.
  apply Hne. apply hex_fixed_inj in Hs; [|assumption ..].
  destruct o1, o2. simpl in Hs. congruence.
Qed.

Lemma normalize_keeps_object_ids_apart_witness :
  normalize stored_ada !! "id"
  ≠ normalize (<["_id" := PObjectId (mkObjectId 256)]> stored_ada) !! "id".
Proof.
  apply (normalize_keeps_object_ids_apart stored_ada
           (<["_id" := PObjectId (mkObjectId 256)]> stored_ada)
           (mkObjectId 255) (mkObjectId 256));
    [reflexivity | reflexivity | reflexivity | reflexivity | discriminate].
Defined.

(** ** The diagnostic object of [GET /test] *)

(** The dictionary [test_database] returns, field by field. *)
Lemma test_database_object (w : world) :
  test_database w
  = (Returns
       {[ "backend" := DStr "✅ Running";
          "database" := DStr (diagnosis w);
          "database_url" := set_or_not w "DATABASE_URL";
          "database_name" := set_or_not w "DATABASE_NAME";
          "connection_status" :=
            DStr (if connected w then "Connected" else "Not Connected");
          "collections" := DList (listed_collections w) ]}, w).
Proof.
  unfold test_database, test_database_body, diagnosis, listed_collections,
    connected, set_or_not.
  unfold try_except, mbind, block_bind, eval, setitem, return_state,
    hasattr_name, raise, eval, mret, block_ret.
  destruct (import_db w) as [[db|]|e].
  - destruct (db_name db) as [v|[]];
      destruct (db_list_collection_names db) as [l|e']; reflexivity.
  - reflexivity.
  - destruct e; reflexivity.
Qed.

(** X5: whatever the state of the store, the object [test_database]
    returns has exactly the six fields of its initial dictionary: no
    branch adds a field or removes one. *)
Theorem test_database_fields (w : world) :
  ∃ d : gmap string diag_value,
    test_database w = (Returns d, w)
    ∧ dom d = {[ "backend"; "database"; "database_url"; "database_name";
                 "connection_status"; "collections" ]}.
Proof.
  eexists. split; [apply test_database_object|].
  rewrite !dom_insert_L, dom_singleton_L. set_solver.
Qed.

(** X6: ["collections"] holds at most 10 names, the first ones
    [db.list_collection_names()] gives; it is non-empty only when
    ["connection_status"] is ["Connected"] and ["database"] reports the
    store as working. *)
Theorem test_database_collections_bounded (w : world) :
  ∃ (d : gmap string diag_value) (names : list string),
    test_database w = (Returns d, w)
    ∧ d !! "collections" = Some (DList names)
    ∧ (length names ≤ 10)%nat
    ∧ match import_db w with
      | Returns (Some db) =>
          match db_list_collection_names db with
          | Returns collections => names `prefix_of` collections
          | Raises _ => names = []
          end
      | _ => names = []
      end
    ∧ (names = []
       ∨ d !! "connection_status" = Some (DStr "Connected")
         ∧ d !! "database" = Some (DStr "✅ Connected & Working")).
Proof.
  eexists. exists (listed_collections w).
  split; [apply test_database_object|].
  split; [lookup_item; reflexivity|].
  unfold listed_collections, connected, diagnosis.
  destruct (import_db w) as [[db|]|e];
    [|by (split; [simpl; lia|split; [reflexivity|left]]) ..].
  destruct (db_name db) as [v|[]];
    destruct (db_list_collection_names db) as [l|e'];
    (split; [first [rewrite length_take; lia | simpl; lia]|]);
    (split; [first [apply prefix_take | apply prefix_nil | reflexivity]|]);
    first [ by left | right; split; lookup_item; reflexivity ].
Qed.

(** X7: the initial value of ["database"], ["❌ Not Available"], never
    reaches the client: every path through the handler assigns the field
    again. *)
Theorem test_database_never_not_available (w : world) :
  ∃ (d : gmap string diag_value) (text : string),
    test_database w = (Returns d, w)
    ∧ d !! "database" = Some (DStr text)
    ∧ text ≠ "❌ Not Available".
Proof.
  eexists. exists (diagnosis w). split; [apply test_database_object|].
  split; [lookup_item; reflexivity|].
  unfold diagnosis, describe_failure.
  destruct (import_db w) as [[db|]|e].
  - destruct (db_name db) as [v|[]];
      destruct (db_list_collection_names db) as [l|e']; discriminate.
  - discriminate.
  - destruct e; discriminate.
Qed.

Lemma code_points_slice (n : nat) (s : string) :
  (code_points (str_slice_to n s) ≤ n)%nat.
Proof.
  revert n. induction s as [|c s IH]; intros n; simpl; [lia|].
  destruct (is_continuation c) eqn:Hc; simpl; rewrite ?Hc.
  - apply IH.
  - destruct n as [|n]; simpl; rewrite ?Hc; [lia|].
    specialize (IH n). lia.
Qed.

Lemma str_slice_to_prefix (n : nat) (s : string) :
  ∃ rest, s = str_slice_to n s +:+ rest.
Proof.
  revert n. induction s as [|c s IH]; intros n; simpl; [by exists ""|].
  destruct (is_continuation c).
  - destruct (IH n) as [rest Hrest]. exists rest. rewrite Hrest at 1. reflexivity.
  - destruct n as [|n]; [by eexists|].
    destruct (IH n) as [rest Hrest]. exists rest. rewrite Hrest at 1. reflexivity.
Qed.

Lemma str_slice_to_short (n : nat) (s : string) :
  (code_points s ≤ n)%nat → str_slice_to n s = s.
Proof.
  revert n. induction s as [|c s IH]; intros n; simpl; [done|].
  destruct (is_continuation c).
  - intros H. by rewrite IH.
  - destruct n as [|n]; [lia|]. intros H. rewrite IH; [done|lia].
Qed.

(** X8: when listing the collections raises [e], ["database"] carries
    after its prefix the first 50 characters of [str(e)] at most: a
    message of up to 50 characters whole, a longer one cut. *)
Theorem test_database_truncates_message
    (w : world) (db : Database) (name : diag_value) (e : exn) :
  import_db w = Returns (Some db) →
  db_name db = Returns name →
  db_list_collection_names db = Raises e →
  ∃ (d : gmap string diag_value) (shown rest : string),
    test_database w = (Returns d, w)
    ∧ d !! "database" = Some (DStr ("⚠️  Connected but Error: " +:+ shown))
    ∧ exn_str e = shown +:+ rest
    ∧ (code_points shown ≤ 50)%nat
    ∧ ((code_points (exn_str e) ≤ 50)%nat → shown = exn_str e).
Proof.
  intros Himport Hname Hlist.
  destruct (str_slice_to_prefix 50 (exn_str e)) as [rest Hrest].
  eexists. exists (str_slice_to 50 (exn_str e)), rest.
  split; [apply test_database_object|].
  split; [|split; [exact Hrest|split]].
  - lookup_item. unfold diagnosis. rewrite Himport, Hname, Hlist. reflexivity.
  - apply code_points_slice.
  - apply str_slice_to_short.
Qed.

Lemma test_database_truncates_message_witness :
  let db := mkDatabase (Returns (DStr "choppinzskys")) (Raises long_failure)
              None None ∅ 0 in
  let w := startup configured (Returns (Some db)) in
  import_db w = Returns (Some db)
  ∧ db_name db = Returns (DStr "choppinzskys")
  ∧ db_list_collection_names db = Raises long_failure
  ∧ ∃ (d : gmap string diag_value) (shown rest : string),
      test_database w = (Returns d, w)
      ∧ d !! "database" = Some (DStr ("⚠️  Connected but Error: " +:+ shown))
      ∧ exn_str long_failure = shown +:+ rest
      ∧ (code_points shown ≤ 50)%nat.
Proof.
  intros db w. split; [reflexivity|]. split; [reflexivity|].
  split; [reflexivity|].
  destruct (test_database_truncates_message w db (DStr "choppinzskys")
              long_failure eq_refl eq_refl eq_refl)
    as (d & shown & rest & H1 & H2 & H3 & H4 & _).
  exists d, shown, rest. auto.
Defined.

Example test_database_cuts_long_message :
  str_slice_to 50 (exn_str long_failure)
  = "✅ 012345678901234567890123456789012345678901234567".
Proof. reflexivity. Qed.

(** ** The application as a whole *)

Lemma serve_state {A} (encode : A → option content) (handler : block world A)
    (w : world) :
  (serve encode handler w).2 = (handler w).2.
Proof. unfold serve. destruct (handler w). reflexivity. Qed.




Lemma app_calls (r : request) (w : world) :
  calls (app r w).2 = (calls w ++ adapter_calls r)%list.
Proof.
  destruct r as [| | | |json|limit| |];
    try (cbn [adapter_calls]; rewrite app_nil_r; unfold app;
         rewrite ?serve_state; reflexivity).
  - unfold app, adapter_calls.
    destruct (schemas.validate json) as [errors|inquiry];
      [by rewrite app_nil_r|].
    rewrite serve_state.
    destruct (database.create_document "inquiry" inquiry w)
      as [[v|e] w'] eqn:Hc.
    + rewrite (create_inquiry_returns _ _ _ _ Hc).
      by eapply create_document_calls.
    + rewrite (create_inquiry_raises _ _ _ _ Hc).
      by eapply create_document_calls.
  - unfold app, adapter_calls. rewrite serve_state.
    destruct (database.get_documents "inquiry" (default 10%Z limit) w)
      as [[docs|e] w'] eqn:Hg.
    + rewrite (list_inquiries_returns _ _ _ _ Hg).
      by eapply get_documents_calls.
    + rewrite (list_inquiries_raises _ _ _ _ Hg).
      by eapply get_documents_calls.
Qed.

(** X10: over any sequence of requests to the routes of [main.py], the
    adapter is called once for each [POST /api/inquiries] whose body is
    valid and once for each [GET /api/inquiries] whose [limit] is absent
    or an integer, in the order of the requests, always on the collection
    ["inquiry"], with the limit as given (10 when absent, unchecked
    otherwise).  The other routes, a rejected body and a [limit] that is
    not an integer make no call, and a failed call is not tried again. *)
Theorem run_adapter_calls (rs : list request) (w : world) :
  calls (run rs w) = (calls w ++ (rs ≫= adapter_calls))%list.
Proof.
  revert w. induction rs as [|r rs IH]; intros w.
  - simpl. by rewrite app_nil_r.
  - rewrite bind_cons. cbn [run]. rewrite IH, app_calls.
    by rewrite <- (assoc_L (++)).
Qed.

Example run_adapter_calls_sample :
  calls (run [GET_test; POST_api_inquiries (delete "name" ada_json);
              GET_api_inquiries (Some (-5)%Z); POST_api_inquiries ada_json;
              GET_api_inquiries_limit_not_int; GET_api_menu;
              POST_api_inquiries_not_an_object; GET_api_inquiries None]
           world_failing)
  = [GetDocuments "inquiry" (-5); CreateDocument "inquiry" ada;
     GetDocuments "inquiry" 10].
Proof. rewrite run_adapter_calls. vm_compute. reflexivity. Qed.
